(** * pypaimon.catalog.rest.rest_catalog: the REST catalog client

    A shallow embedding of [RESTCatalog] (rest_catalog.py).  Python
    dictionaries are mutable objects, so they live in a store and are
    handled through references; every method is a computation over that
    store, the log of calls made to the REST API and the state of the
    remote metadata service. *)

From stdpp Require Import base option gmap strings list fin_maps.

(** ** Python values and objects *)

(** A [Dict[str, str]] held by value. *)
Abbreviation Dict := (gmap string string).

(** A reference to a dictionary object. *)
Abbreviation loc := positive.

(** The exceptions that can travel through the catalog: the [ValueError] it
    raises itself, the [AttributeError] of an attribute access on [None], and
    whatever the REST API raises, which the catalog never catches. *)
Inductive Exn : Type :=
| ValueError (msg : string)
| AttributeError (msg : string)
| RemoteError (msg : string).

(** A dynamically typed option value, as [dict.get] returns it. *)
Inductive PyValue : Type :=
| PyNone
| PyBool (b : bool)
| PyStr (s : string).

(** Python's truth value testing, as used by [x if v else y]. *)
Definition truthy (v : PyValue) : bool :=
  match v with
  | PyNone => false
  | PyBool b => b
  | PyStr s => negb (String.eqb s "")
  end.

(** ** Identifier *)

Module Identifier.

(** Modelled from the spec: pypaimon.common.identifier is not among the
    sources; an identifier is [{database, table, branch: optional}]. *)
Record t : Type := mk {
  database_name : string;
  object_name : string;
  branch_name : option string
}.

Definition get_database_name (i : t) : string := database_name i.
Definition get_branch_name (i : t) : option string := branch_name i.

End Identifier.

(** ** PropertyChange *)

Module PropertyChange.

(** Modelled from the spec: pypaimon.catalog.property_change is not among
    the sources; a change is the tagged variant [Set{key, value} | Remove{key}]. *)
Inductive t : Type :=
| SetProperty (key value : string)
| RemoveProperty (key : string).

Definition key_of (c : t) : string :=
  match c with
  | SetProperty k _ => k
  | RemoveProperty k => k
  end.

(** One step of the reduction: the change overrides whatever was recorded
    for its key before, whichever variant that was. *)
Definition apply_change (acc : Dict * gset string) (c : t) : Dict * gset string :=
  match c with
  | SetProperty k v => (<[k := v]> (fst acc), snd acc ∖ {[k]})
  | RemoveProperty k => (delete k (fst acc), snd acc ∪ {[k]})
  end.

(** Modelled from the spec: [PropertyChange.get_set_properties_to_remove_keys]
    is not among the sources; the spec describes it as a single left-to-right
    fold to [(set_map, remove_keys)] in which a later change to a key
    overrides an earlier one. *)
Definition get_set_properties_to_remove_keys (changes : list t) : Dict * gset string :=
  fold_left apply_change changes (∅, ∅).

(** What a change records for its own key in a reduced batch: a set makes
    the key map to its value and keeps it out of the keys to remove; a removal
    takes the key out of the map and puts it among the keys to remove. *)
Definition recorded (c : t) (res : Dict * gset string) : Prop :=
  match c with
  | SetProperty k v => fst res !! k = Some v /\ k ∉ snd res
  | RemoveProperty k => fst res !! k = None /\ k ∈ snd res
  end.

End PropertyChange.

(** ** Data objects *)

(** Modelled from the spec: pypaimon.Schema is not among the sources; it has
    [{fields, partition keys, primary keys, options, comment}].  The options
    mapping is a dictionary object, held by reference. *)
Record Schema {DataField : Type} : Type := mkSchema {
  fields : list DataField;
  partition_keys : list string;
  primary_keys : list string;
  options : loc;
  comment : option string
}.
Arguments Schema : clear implicits.
Arguments mkSchema {DataField}.

(** Modelled from the spec: [Schema.copy(options)] is not among the sources;
    it produces a new Schema with the options map replaced and every other
    field shared by value. *)
Definition Schema_copy {DataField} (s : Schema DataField) (new_options : loc) : Schema DataField :=
  {| fields := fields s;
     partition_keys := partition_keys s;
     primary_keys := primary_keys s;
     options := new_options;
     comment := comment s |}.

(** [TableMetadata(schema, is_external, uuid)]. *)
Record TableMetadata {DataField : Type} : Type := mkTableMetadata {
  schema : Schema DataField;
  is_external : bool;
  uuid : string
}.
Arguments TableMetadata : clear implicits.
Arguments mkTableMetadata {DataField}.

(** [Database(name, options)]; the properties are the dictionary it was given. *)
Record Database : Type := mkDatabase {
  db_name : string;
  db_properties : loc
}.

(** Modelled from the spec: [GetTableResponse] (pypaimon.api.api_response) is
    not among the sources; the remote service answers
    [{schema, path, is_external, id, name}] with audit pairs attached. *)
Record GetTableResponse {DataField : Type} : Type := mkGetTableResponse {
  get_id : string;
  get_name : string;
  get_path : string;
  get_is_external : bool;
  get_schema : Schema DataField;
  table_audit : list (string * string)
}.
Arguments GetTableResponse : clear implicits.
Arguments mkGetTableResponse {DataField}.

(** Modelled from the spec: [GetDatabaseResponse] is not among the sources;
    the remote service answers [{options, location}] with audit pairs. *)
Record GetDatabaseResponse : Type := mkGetDatabaseResponse {
  response_options : loc;
  response_location : string;
  database_audit : list (string * string)
}.

(** Modelled from the spec: [RESTTokenFileIO] is not among the sources; the
    accessor is bound to [(identifier, path)] and fetches its credential on
    first use, so constructing it only records its four arguments. *)
Record RESTTokenFileIO : Type := mkRESTTokenFileIO {
  io_identifier : Identifier.t;
  io_path : string;
  io_arg3 : PyValue;
  io_arg4 : PyValue
}.

(** ** What travels over the wire *)

(** The schema of a table as the service sends it: the options by value. *)
Record SchemaData {DataField : Type} : Type := mkSchemaData {
  sd_fields : list DataField;
  sd_partition_keys : list string;
  sd_primary_keys : list string;
  sd_options : Dict;
  sd_comment : option string
}.
Arguments SchemaData : clear implicits.
Arguments mkSchemaData {DataField}.

Record TableData {DataField : Type} : Type := mkTableData {
  td_id : string;
  td_name : string;
  td_path : string;
  td_is_external : bool;
  td_schema : SchemaData DataField;
  td_audit : list (string * string)
}.
Arguments TableData : clear implicits.
Arguments mkTableData {DataField}.

Record DatabaseData : Type := mkDatabaseData {
  dd_options : Dict;
  dd_location : string;
  dd_audit : list (string * string)
}.

(** The calls of the REST API that the modelled methods make. *)
Inductive ApiCall : Type :=
| ApiCreateDatabase (name : string) (properties : option Dict)
| ApiGetDatabase (name : string)
| ApiAlterDatabase (name : string) (remove_keys : list string) (set_properties : Dict)
| ApiGetTable (identifier : Identifier.t).

(** ** The store and the monad of catalog computations *)

Inductive Outcome (A : Type) : Type :=
| Return (a : A)
| Raise (e : Exn).
Arguments Return {A}.
Arguments Raise {A}.

(** [heap]: the dictionary objects; [calls]: the calls made to the REST API,
    oldest first; [remote]: the state of the remote metadata service. *)
Record Store {R : Type} : Type := mkStore {
  heap : gmap loc Dict;
  calls : list ApiCall;
  remote : R
}.
Arguments Store : clear implicits.
Arguments mkStore {R}.

Definition M (R A : Type) : Type := Store R -> Outcome A * Store R.

Definition ret {R A} (a : A) : M R A := fun σ => (Return a, σ).

Definition raise {R A} (e : Exn) : M R A := fun σ => (Raise e, σ).

Definition bind {R A B} (m : M R A) (k : A -> M R B) : M R B :=
  fun σ =>
    match m σ with
    | (Return a, σ') => k a σ'
    | (Raise e, σ') => (Raise e, σ')
    end.

Notation "x <- m ;; k" := (bind m (fun x => k))
  (at level 100, m at next level, right associativity).
Notation "m ;;; k" := (bind m (fun _ => k))
  (at level 100, right associativity).

(** *** Dictionary objects *)

(** The dictionary a reference denotes.  A Python reference always denotes a
    live object; outside the heap the read is given the empty mapping. *)
Definition deref {R} (σ : Store R) (l : loc) : Dict :=
  default ∅ (heap σ !! l).

Definition set_heap {R} (h : gmap loc Dict) (σ : Store R) : Store R :=
  {| heap := h; calls := calls σ; remote := remote σ |}.

(** A new dictionary object holding [d]. *)
Definition new_dict {R} (d : Dict) : M R loc :=
  fun σ =>
    let l := fresh (dom (heap σ)) in
    (Return l, set_heap (<[l := d]> (heap σ)) σ).

(** [dict(src)]: a new dictionary with the entries of [src]. *)
Definition dict_copy {R} (src : loc) : M R loc :=
  fun σ => new_dict (deref σ src) σ.

(** [d[k] = v], in place. *)
Definition dict_setitem {R} (d : loc) (k v : string) : M R unit :=
  fun σ => (Return tt, set_heap (<[d := <[k := v]> (deref σ d)]> (heap σ)) σ).

(** Modelled from the spec: [put_audit_options_to(options)] is not among the
    sources; it applies the audit key-value pairs of a response onto the given
    dictionary, in place, overwriting colliding keys. *)
Fixpoint put_audit_options_to {R} (audit : list (string * string)) (d : loc) : M R unit :=
  match audit with
  | [] => ret tt
  | (k, v) :: rest => dict_setitem d k v ;;; put_audit_options_to rest d
  end.

(** ** The REST API client *)

(** The remote metadata service: each endpoint answers from, and may change,
    the service's state. *)
Record RemoteService {R DataField : Type} : Type := mkRemoteService {
  remote_create_database : string -> option Dict -> R -> Outcome unit * R;
  remote_get_database : string -> R -> Outcome (option DatabaseData) * R;
  remote_alter_database : string -> list string -> Dict -> R -> Outcome unit * R;
  remote_get_table : Identifier.t -> R -> Outcome (TableData DataField) * R
}.
Arguments RemoteService : clear implicits.

(** One call: it is logged, and the service answers. *)
Definition api_call {R A} (c : ApiCall) (endpoint : R -> Outcome A * R) : M R A :=
  fun σ =>
    let '(r, s) := endpoint (remote σ) in
    (r, {| heap := heap σ; calls := calls σ ++ [c]; remote := s |}).

Section RESTApi.
Context {R DataField : Type}.
Variable service : RemoteService R DataField.

Definition RESTApi_create_database (name : string) (properties : option Dict) : M R unit :=
  api_call (ApiCreateDatabase name properties)
           (remote_create_database service name properties).

(** The answer is decoded into a new response object, with a dictionary of
    its own. *)
Definition RESTApi_get_database (name : string) : M R (option GetDatabaseResponse) :=
  answer <- api_call (ApiGetDatabase name) (remote_get_database service name) ;;
  match answer with
  | None => ret None
  | Some d =>
      o <- new_dict (dd_options d) ;;
      ret (Some {| response_options := o;
                   response_location := dd_location d;
                   database_audit := dd_audit d |})
  end.

Definition RESTApi_alter_database (name : string) (remove_keys : list string)
           (set_properties : Dict) : M R unit :=
  api_call (ApiAlterDatabase name remove_keys set_properties)
           (remote_alter_database service name remove_keys set_properties).

Definition RESTApi_get_table (identifier : Identifier.t) : M R (GetTableResponse DataField) :=
  d <- api_call (ApiGetTable identifier) (remote_get_table service identifier) ;;
  o <- new_dict (sd_options (td_schema d)) ;;
  ret {| get_id := td_id d;
         get_name := td_name d;
         get_path := td_path d;
         get_is_external := td_is_external d;
         get_schema := {| fields := sd_fields (td_schema d);
                          partition_keys := sd_partition_keys (td_schema d);
                          primary_keys := sd_primary_keys (td_schema d);
                          options := o;
                          comment := sd_comment (td_schema d) |};
         table_audit := td_audit d |}.
End RESTApi.

(** ** RESTCatalog *)

(** The catalog object: its API client and the flag read at construction. *)
Record RESTCatalog {R DataField : Type} : Type := mkRESTCatalog {
  api : RemoteService R DataField;
  data_token_enabled : PyValue
}.
Arguments RESTCatalog : clear implicits.
Arguments mkRESTCatalog {R DataField}.

Section Catalog.
Context {R DataField : Type}.

(** The reserved option keys [CoreOptions.PATH], [CoreOptions.BRANCH] and
    [Catalog.DB_LOCATION_PROP], and [Identifier.create], are declared outside
    rest_catalog.py; the development is parametric in them. *)
Variables PATH BRANCH DB_LOCATION_PROP : string.
Variable Identifier_create : string -> string -> Identifier.t.

Variable self : RESTCatalog R DataField.

(** [create_database]: the flag [ignore_if_exists] is received and the call
    is forwarded with the name and the properties. *)
Definition create_database (name : string) (ignore_if_exists : bool)
           (properties : option Dict) : M R unit :=
  RESTApi_create_database (api self) name properties.

(** [get_database]: the response's own dictionary is updated in place and
    handed to the [Database]; the test [response is not None] comes after the
    response has been used. *)
Definition get_database (name : string) : M R (option Database) :=
  response <- RESTApi_get_database (api self) name ;;
  match response with
  | None => raise (AttributeError "'NoneType' object has no attribute 'options'")
  | Some response =>
      let options := response_options response in
      dict_setitem options DB_LOCATION_PROP (response_location response) ;;;
      put_audit_options_to (database_audit response) options ;;;
      ret (Some (mkDatabase name options))
  end.

(** [alter_database]: reduce the changes, then forward both parts. *)
Definition alter_database (name : string) (changes : list PropertyChange.t) : M R unit :=
  let '(set_properties, remove_keys) :=
    PropertyChange.get_set_properties_to_remove_keys changes in
  RESTApi_alter_database (api self) name (elements remove_keys) set_properties.

(** [create_table]: the identifier is a string or an [Identifier]. *)
Definition create_table (identifier : string + Identifier.t) (sch : Schema DataField)
           (ignore_if_exists : bool) : M R unit :=
  raise (ValueError "Not implemented").

Definition to_table_metadata (db : string) (response : GetTableResponse DataField)
  : M R (TableMetadata DataField) :=
  let sch := get_schema response in
  options <- dict_copy (options sch) ;;
  dict_setitem options PATH (get_path response) ;;;
  put_audit_options_to (table_audit response) options ;;;
  let identifier := Identifier_create db (get_name response) in
  match Identifier.get_branch_name identifier with
  | Some b => dict_setitem options BRANCH b
  | None => ret tt
  end ;;;
  ret {| schema := Schema_copy sch options;
         is_external := get_is_external response;
         uuid := get_id response |}.

Definition load_table_metadata (identifier : Identifier.t) : M R (TableMetadata DataField) :=
  response <- RESTApi_get_table (api self) identifier ;;
  to_table_metadata (Identifier.get_database_name identifier) response.

Definition file_io_from_options (path : string) : M R (option RESTTokenFileIO) :=
  ret None.

Definition file_io_for_data (path : string) (identifier : Identifier.t)
  : M R (option RESTTokenFileIO) :=
  ret (if truthy (data_token_enabled self)
       then Some (mkRESTTokenFileIO identifier path PyNone PyNone)
       else None).

End Catalog.

(** ** The overlays, as functions on mappings

    What the in-place updates of [get_database] and [to_table_metadata] amount
    to on the contents of the dictionary; the lemmas below relate them to the
    methods. *)

(** The audit pairs applied in order onto a mapping. *)
Definition apply_audit (audit : list (string * string)) (o : Dict) : Dict :=
  fold_left (fun acc kv => <[fst kv := snd kv]> acc) audit o.

(** The value the audit pairs carry for a key: that of the last pair with it. *)
Fixpoint audit_value (audit : list (string * string)) (k : string) : option string :=
  match audit with
  | [] => None
  | (k', v) :: rest =>
      match audit_value rest k with
      | Some w => Some w
      | None => if decide (k' = k) then Some v else None
      end
  end.

(** Declared options, then the path, then the audit pairs. *)
Definition options_before_branch (PATH : string) {DataField}
           (response : GetTableResponse DataField) (declared : Dict) : Dict :=
  apply_audit (table_audit response) (<[PATH := get_path response]> declared).

(** The contents of the options of a resolved table. *)
Definition resolved_options (PATH BRANCH : string)
           (Identifier_create : string -> string -> Identifier.t) {DataField}
           (db : string) (response : GetTableResponse DataField) (declared : Dict) : Dict :=
  match Identifier.get_branch_name (Identifier_create db (get_name response)) with
  | Some b => <[BRANCH := b]> (options_before_branch PATH response declared)
  | None => options_before_branch PATH response declared
  end.

(** The contents of the properties of a resolved database. *)
Definition resolved_properties (DB_LOCATION_PROP : string) (d : DatabaseData) : Dict :=
  apply_audit (dd_audit d) (<[DB_LOCATION_PROP := dd_location d]> (dd_options d)).

(** The response object that [RESTApi_get_table] builds around a dictionary. *)
Definition response_of {DataField} (d : TableData DataField) (o : loc) : GetTableResponse DataField :=
  {| get_id := td_id d;
     get_name := td_name d;
     get_path := td_path d;
     get_is_external := td_is_external d;
     get_schema := {| fields := sd_fields (td_schema d);
                      partition_keys := sd_partition_keys (td_schema d);
                      primary_keys := sd_primary_keys (td_schema d);
                      options := o;
                      comment := sd_comment (td_schema d) |};
     table_audit := td_audit d |}.

(** The store after [load_table_metadata]: the call is logged, the response's
    dictionary is at [l1] and the resolved one at [l2]. *)
Definition loaded_store (PATH BRANCH : string)
           (Identifier_create : string -> string -> Identifier.t) {R DataField}
           (identifier : Identifier.t) (σ : Store R) (d : TableData DataField) (s : R)
           (l1 l2 : loc) : Store R :=
  {| heap := <[l2 := resolved_options PATH BRANCH Identifier_create
                        (Identifier.get_database_name identifier)
                        (response_of d l1) (sd_options (td_schema d))]>
               (<[l1 := sd_options (td_schema d)]> (heap σ));
     calls := calls σ ++ [ApiGetTable identifier];
     remote := s |}.

(** A [TableMetadata] read through the store: its options by content. *)
Definition view {R DataField} (σ : Store R) (tm : TableMetadata DataField)
  : list DataField * list string * list string * Dict * option string * bool * string :=
  (fields (schema tm), partition_keys (schema tm), primary_keys (schema tm),
   deref σ (options (schema tm)), comment (schema tm), is_external tm, uuid tm).

(** The options of the result of a resolution, by content. *)
Definition result_options {R DataField}
           (r : Outcome (TableMetadata DataField) * Store R) : option Dict :=
  match r with
  | (Return tm, σ) => Some (deref σ (options (schema tm)))
  | (Raise _, _) => None
  end.

(** The properties of the result of [get_database], by content. *)
Definition result_properties {R} (r : Outcome (option Database) * Store R) : option Dict :=
  match r with
  | (Return (Some db), σ) => Some (deref σ (db_properties db))
  | _ => None
  end.

(** ** Concrete instances for the examples *)

Module Examples.

(** [Identifier.create] is outside rest_catalog.py.  Two stand-ins cover the
    two outcomes of the test [identifier.get_branch_name() is not None]: an
    identifier without a branch, and one on branch [b]. *)
Definition create_plain (db name : string) : Identifier.t :=
  Identifier.mk db name None.

Definition create_on_branch (b : string) (db name : string) : Identifier.t :=
  Identifier.mk db name (Some b).

(** A remote service that answers every [get_table] with [t] and every
    [get_database] with [d], and never changes. *)
Definition fixed_service (t : TableData string) (d : option DatabaseData)
  : RemoteService unit string :=
  {| remote_create_database := fun _ _ r => (Return tt, r);
     remote_get_database := fun _ r => (Return d, r);
     remote_alter_database := fun _ _ _ r => (Return tt, r);
     remote_get_table := fun _ r => (Return t, r) |}.

Definition empty_store : Store unit :=
  {| heap := ∅; calls := []; remote := tt |}.

(** Table [t] of database [db], with declared options [o] and audit [a]. *)
Definition table_t (o : Dict) (a : list (string * string)) : TableData string :=
  {| td_id := "uuid-1";
     td_name := "t";
     td_path := "/warehouse/db.db/t";
     td_is_external := false;
     td_schema := {| sd_fields := ["id"; "name"];
                     sd_partition_keys := [];
                     sd_primary_keys := ["id"];
                     sd_options := o;
                     sd_comment := None |};
     td_audit := a |}.

Definition database_db (o : Dict) (a : list (string * string)) : DatabaseData :=
  {| dd_options := o; dd_location := "/warehouse/db.db"; dd_audit := a |}.

Definition catalog (t : TableData string) (d : option DatabaseData) (flag : PyValue)
  : RESTCatalog unit string :=
  {| api := fixed_service t d; data_token_enabled := flag |}.

End Examples.

(** ** The constructor's flag and [get_table] *)

(** Line 42 of [__init__]: the flag is what [self.api.options.get] gives for
    the key [CatalogOptions.DATA_TOKEN_ENABLED], [None] when the options have
    no such entry.  The construction of the API client and of the context
    (lines 39-41) is outside rest_catalog.py: [service] and [api_options] stand
    for the constructed client and for the options it exposes. *)
Definition RESTCatalog_init {R DataField : Type} (DATA_TOKEN_ENABLED : string)
           (service : RemoteService R DataField) (api_options : gmap string PyValue)
  : RESTCatalog R DataField :=
  {| api := service;
     data_token_enabled := default PyNone (api_options !! DATA_TOKEN_ENABLED) |}.

(** A computation that only returns or raises. *)
Definition lift {R A} (r : Outcome A) : M R A := fun σ => (r, σ).

Section GetTable.
Context {R DataField FileStoreTable : Type}.
Variables PATH BRANCH : string.
Variable Identifier_create : string -> string -> Identifier.t.

(** [Identifier.from_string] and [CatalogUtils.load_table] are declared outside
    rest_catalog.py; [get_table] is parametric in them.  The loader receives
    the identifier, the two file-access resolvers and the metadata loader. *)
Variable Identifier_from_string : string -> Outcome Identifier.t.
Variable CatalogUtils_load_table :
  Identifier.t ->
  (string -> M R (option RESTTokenFileIO)) ->
  (string -> M R (option RESTTokenFileIO)) ->
  (Identifier.t -> M R (TableMetadata DataField)) ->
  M R FileStoreTable.

Variable self : RESTCatalog R DataField.

(** [get_table]: a string is converted first; the resolver for data files is
    closed over the converted identifier. *)
Definition get_table (identifier : string + Identifier.t) : M R FileStoreTable :=
  identifier <- match identifier with
                | inl s => lift (Identifier_from_string s)
                | inr i => ret i
                end ;;
  CatalogUtils_load_table
    identifier
    (fun path => file_io_for_data self path identifier)
    file_io_from_options
    (load_table_metadata PATH BRANCH Identifier_create self).

End GetTable.

Module Fixtures.

(** A remote service on which every call raises [e]. *)
Definition failing_service (e : Exn) : RemoteService unit string :=
  {| remote_create_database := fun _ _ r => (Raise e, r);
     remote_get_database := fun _ r => (Raise e, r);
     remote_alter_database := fun _ _ _ r => (Raise e, r);
     remote_get_table := fun _ r => (Raise e, r) |}.

(** A stand-in for [Identifier.from_string] that knows the name [db.t]. *)
Definition from_string (s : string) : Outcome Identifier.t :=
  if String.eqb s "db.t"
  then Return (Identifier.mk "db" "t" None)
  else Raise (ValueError "Invalid identifier").

(** A stand-in for [CatalogUtils.load_table]: the table handle is the
    metadata together with the accessor for the table's path. *)
Definition load_table (identifier : Identifier.t)
           (data_file_io file_io : string -> M unit (option RESTTokenFileIO))
           (loader : Identifier.t -> M unit (TableMetadata string))
  : M unit (TableMetadata string * option RESTTokenFileIO) :=
  tm <- loader identifier ;;
  io <- data_file_io "/warehouse/db.db/t" ;;
  ret (tm, io).

End Fixtures.

(** * Properties *)

(** ** The store *)

Section StoreLemmas.
Context {R : Type}.
Implicit Types (σ : Store R) (h : gmap loc Dict) (l d : loc) (o : Dict).

Lemma set_heap_set_heap h1 h2 σ : set_heap h2 (set_heap h1 σ) = set_heap h2 σ.
Proof. reflexivity. Qed.

Lemma deref_set_heap_eq h l o σ : deref (set_heap (<[l := o]> h) σ) l = o.
Proof. unfold deref; simpl. by rewrite lookup_insert_eq. Qed.

Lemma deref_heap σ l o : heap σ !! l = Some o -> deref σ l = o.
Proof. unfold deref. by intros ->. Qed.

Lemma fresh_loc_unused σ : heap σ !! fresh (dom (heap σ)) = None.
Proof. apply not_elem_of_dom, is_fresh. Qed.

Lemma apply_audit_cons k v audit o :
  apply_audit ((k, v) :: audit) o = apply_audit audit (<[k := v]> o).
Proof. reflexivity. Qed.

Lemma apply_audit_snoc audit k v o :
  apply_audit (audit ++ [(k, v)]) o = <[k := v]> (apply_audit audit o).
Proof. unfold apply_audit. by rewrite fold_left_app. Qed.

(** Reading a key after the audit pairs: the audit value if there is one,
    what was there before otherwise. *)
Lemma lookup_apply_audit audit o k :
  apply_audit audit o !! k =
    match audit_value audit k with
    | Some v => Some v
    | None => o !! k
    end.
Proof.
  revert o. induction audit as [|[k' v] rest IH]; intros o; [done|].
  rewrite apply_audit_cons, IH. simpl.
  destruct (audit_value rest k); [done|].
  rewrite lookup_insert. by repeat case_decide.
Qed.

(** The audit pairs land in the dictionary they are put to, and nowhere else. *)
Lemma put_audit_options_to_run audit d σ o :
  heap σ !! d = Some o ->
  put_audit_options_to audit d σ
  = (Return tt, set_heap (<[d := apply_audit audit o]> (heap σ)) σ).
Proof.
  revert σ o. induction audit as [|[k v] rest IH]; intros σ o Hd.
  - simpl. unfold ret, set_heap. rewrite insert_id by done. by destruct σ.
  - simpl. unfold bind, dict_setitem.
    erewrite IH by (simpl; apply lookup_insert_eq).
    rewrite set_heap_set_heap. simpl. rewrite insert_insert_eq.
    by rewrite (deref_heap _ _ _ Hd).
Qed.

End StoreLemmas.

(** ** Table-load resolution and database resolution, step by step *)

Section Resolution.
Context {R DataField : Type}.
Variables PATH BRANCH DB_LOCATION_PROP : string.
Variable Identifier_create : string -> string -> Identifier.t.
Variable self : RESTCatalog R DataField.
Implicit Types (σ : Store R) (response : GetTableResponse DataField)
         (d : TableData DataField) (tm : TableMetadata DataField).

(** [to_table_metadata] always returns: it allocates one dictionary, fills
    it with the resolved options and leaves the rest of the store alone. *)
Lemma to_table_metadata_run db response σ :
  to_table_metadata PATH BRANCH Identifier_create db response σ
  = (Return {| schema := Schema_copy (get_schema response) (fresh (dom (heap σ)));
               is_external := get_is_external response;
               uuid := get_id response |},
     set_heap (<[fresh (dom (heap σ)) :=
                   resolved_options PATH BRANCH Identifier_create db response
                     (deref σ (options (get_schema response)))]> (heap σ)) σ).
Proof.
  unfold to_table_metadata, resolved_options, options_before_branch.
  set (l := fresh (dom (heap σ))).
  set (o := deref σ (options (get_schema response))).
  unfold bind at 1. unfold dict_copy, new_dict. fold l. fold o.
  unfold bind at 1. unfold dict_setitem at 1.
  rewrite deref_set_heap_eq, set_heap_set_heap. simpl heap.
  rewrite insert_insert_eq.
  unfold bind at 1.
  erewrite put_audit_options_to_run by (simpl; apply lookup_insert_eq).
  rewrite set_heap_set_heap. simpl heap. rewrite insert_insert_eq.
  destruct (Identifier.get_branch_name _) as [b|]; unfold bind.
  - unfold dict_setitem. rewrite deref_set_heap_eq, set_heap_set_heap.
    simpl heap. by rewrite insert_insert_eq.
  - reflexivity.
Qed.

(** [RESTApi_get_table] on an answering service: the call is logged and the
    response is built around a new dictionary with the declared options. *)
Lemma RESTApi_get_table_run identifier σ d s :
  remote_get_table (api self) identifier (remote σ) = (Return d, s) ->
  RESTApi_get_table (api self) identifier σ
  = (Return (response_of d (fresh (dom (heap σ)))),
     {| heap := <[fresh (dom (heap σ)) := sd_options (td_schema d)]> (heap σ);
        calls := calls σ ++ [ApiGetTable identifier];
        remote := s |}).
Proof.
  intros Hd. unfold RESTApi_get_table, bind, api_call. rewrite Hd.
  reflexivity.
Qed.

Lemma load_table_metadata_run identifier σ d s :
  remote_get_table (api self) identifier (remote σ) = (Return d, s) ->
  let l1 := fresh (dom (heap σ)) in
  let l2 := fresh (dom (<[l1 := sd_options (td_schema d)]> (heap σ))) in
  load_table_metadata PATH BRANCH Identifier_create self identifier σ
  = (Return {| schema := Schema_copy (get_schema (response_of d l1)) l2;
               is_external := td_is_external d;
               uuid := td_id d |},
     loaded_store PATH BRANCH Identifier_create identifier σ d s l1 l2).
Proof.
  intros Hd l1 l2. unfold load_table_metadata, bind.
  rewrite (RESTApi_get_table_run _ _ _ _ Hd), to_table_metadata_run.
  unfold loaded_store, set_heap, deref. simpl.
  by rewrite lookup_insert_eq.
Qed.

(** The resolved options do not look at the dictionary reference held by the
    response, only at the declared options they are given. *)
Lemma resolved_options_response_of db d l1 l2 o :
  resolved_options PATH BRANCH Identifier_create db (response_of d l1) o
  = resolved_options PATH BRANCH Identifier_create db (response_of d l2) o.
Proof. reflexivity. Qed.

(** [get_database] on a service that answers with a database. *)
Lemma get_database_run name σ (d : DatabaseData) s :
  remote_get_database (api self) name (remote σ) = (Return (Some d), s) ->
  get_database DB_LOCATION_PROP self name σ
  = (Return (Some (mkDatabase name (fresh (dom (heap σ))))),
     {| heap := <[fresh (dom (heap σ)) := resolved_properties DB_LOCATION_PROP d]> (heap σ);
        calls := calls σ ++ [ApiGetDatabase name];
        remote := s |}).
Proof.
  intros Hd. unfold get_database, RESTApi_get_database, bind, api_call.
  rewrite Hd. simpl.
  rewrite deref_set_heap_eq, set_heap_set_heap, insert_insert_eq.
  erewrite put_audit_options_to_run by (simpl; apply lookup_insert_eq).
  unfold ret, set_heap, resolved_properties. simpl.
  by rewrite insert_insert_eq.
Qed.

(** [get_database] returns only when the service answered with a database:
    on [None] it raises, and an exception of the service is passed on. *)
Lemma get_database_returns name σ x σ' :
  get_database DB_LOCATION_PROP self name σ = (Return x, σ') ->
  exists (d : DatabaseData) s,
    remote_get_database (api self) name (remote σ) = (Return (Some d), s).
Proof.
  unfold get_database, RESTApi_get_database, bind, api_call.
  destruct (remote_get_database (api self) name (remote σ)) as [[[d|]|e] s] eqn:E;
    simpl; intros H; try discriminate.
  by exists d, s.
Qed.

End Resolution.

(** ** Precedence of the audit options *)

Section AuditPrecedence.
Context {R DataField : Type}.
Variables PATH BRANCH : string.
Variable Identifier_create : string -> string -> Identifier.t.
Implicit Types (σ : Store R) (response : GetTableResponse DataField).

(** C1, as amended.  In a table-load resolution the audit pairs of the
    response are applied after the declared options and the path, so for an
    audit key the resolved options hold the audit value, whatever was
    declared and also when the key is the path key.  The branch is injected
    after the audit pairs: when the identifier built from the database and the
    response's name carries a branch, the branch key holds that branch, not
    the audit value. *)
Theorem audit_wins_except_over_branch db response σ k v :
  audit_value (table_audit response) k = Some v ->
  exists tm σ',
    to_table_metadata PATH BRANCH Identifier_create db response σ = (Return tm, σ')
    /\ deref σ' (options (schema tm)) !! k
       = match Identifier.get_branch_name (Identifier_create db (get_name response)) with
         | Some b => if decide (k = BRANCH) then Some b else Some v
         | None => Some v
         end.
Proof.
  intros Hv. eexists _, _. split; [apply to_table_metadata_run|].
  simpl. rewrite deref_set_heap_eq.
  unfold resolved_options, options_before_branch.
  destruct (Identifier.get_branch_name _) as [b|].
  - rewrite lookup_insert. case_decide as Hk.
    + subst k. by rewrite decide_True.
    + rewrite decide_False by congruence.
      by rewrite lookup_apply_audit, Hv.
  - by rewrite lookup_apply_audit, Hv.
Qed.

End AuditPrecedence.

(** An instance: the audit pair [("owner", "alice")] against a declared
    option [owner = bob], on a table without a branch. *)
Lemma audit_wins_except_over_branch_witness :
  audit_value [("owner", "alice")] "owner" = Some "alice"
  /\ exists tm σ',
      to_table_metadata "path" "branch" Examples.create_plain "db"
        (response_of (Examples.table_t {["owner" := "bob"]} [("owner", "alice")]) 1%positive)
        {| heap := {[1%positive := {["owner" := "bob"]}]}; calls := []; remote := tt |}
      = (Return tm, σ')
      /\ deref σ' (options (schema tm)) !! "owner" = Some "alice".
Proof.
  split; [reflexivity|].
  exact (audit_wins_except_over_branch "path" "branch" Examples.create_plain "db"
           (response_of (Examples.table_t {["owner" := "bob"]} [("owner", "alice")]) 1%positive)
           {| heap := {[1%positive := {["owner" := "bob"]}]}; calls := []; remote := tt |}
           "owner" "alice" eq_refl).
Defined.

(** C1, as stated, fails where the audit key is the branch key: the response
    carries the audit pair [("branch", "from-audit")], the identifier is on
    branch [b1], and the resolved options hold [b1] under the branch key. *)
Lemma audit_overwritten_by_branch :
  audit_value (td_audit (Examples.table_t ∅ [("branch", "from-audit")])) "branch"
  = Some "from-audit"
  /\ result_options
       (load_table_metadata "path" "branch" (Examples.create_on_branch "b1")
          (Examples.catalog (Examples.table_t ∅ [("branch", "from-audit")]) None PyNone)
          (Identifier.mk "db" "t" (Some "b1")) Examples.empty_store)
     ≫= (fun o => o !! "branch")
     = Some "b1".
Proof. split; vm_compute; reflexivity. Qed.

(** ** Branch injection *)

Section BranchInjection.
Context {R DataField : Type}.
Variables PATH BRANCH : string.
Variable Identifier_create : string -> string -> Identifier.t.
Variable self : RESTCatalog R DataField.
Implicit Types (σ : Store R) (d : TableData DataField).

(** C2, as amended.  When the service answers, [load_table_metadata] returns
    a [TableMetadata]; if the identifier built from the database name and the
    name in the response carries a branch, its options hold that branch under
    the branch key; otherwise the branch key holds what the declared options,
    the path and the audit pairs put there, and is absent exactly when none
    of them has it. *)
Theorem load_table_metadata_branch identifier σ d s :
  remote_get_table (api self) identifier (remote σ) = (Return d, s) ->
  exists tm σ',
    load_table_metadata PATH BRANCH Identifier_create self identifier σ = (Return tm, σ')
    /\ deref σ' (options (schema tm)) !! BRANCH
       = match Identifier.get_branch_name
                 (Identifier_create (Identifier.get_database_name identifier) (td_name d)) with
         | Some b => Some b
         | None =>
             match audit_value (td_audit d) BRANCH with
             | Some v => Some v
             | None => <[PATH := td_path d]> (sd_options (td_schema d)) !! BRANCH
             end
         end.
Proof.
  intros Hd. eexists _, _. split; [by apply load_table_metadata_run|].
  unfold loaded_store, deref. simpl. rewrite lookup_insert_eq. simpl.
  unfold resolved_options, options_before_branch. simpl.
  destruct (Identifier.get_branch_name _) as [b|].
  - apply lookup_insert_eq.
  - apply lookup_apply_audit.
Qed.

End BranchInjection.

(** An instance: a response whose identifier is on branch [branch1]. *)
Lemma load_table_metadata_branch_witness :
  exists tm σ',
    load_table_metadata "path" "branch" (Examples.create_on_branch "branch1")
      (Examples.catalog (Examples.table_t ∅ []) None PyNone)
      (Identifier.mk "db" "t" (Some "branch1")) Examples.empty_store
    = (Return tm, σ')
    /\ deref σ' (options (schema tm)) !! "branch" = Some "branch1".
Proof.
  exact (load_table_metadata_branch "path" "branch" (Examples.create_on_branch "branch1")
           (Examples.catalog (Examples.table_t ∅ []) None PyNone)
           (Identifier.mk "db" "t" (Some "branch1")) Examples.empty_store
           (Examples.table_t ∅ []) tt eq_refl).
Defined.

(** C2, as stated, fails in both halves.  The caller's identifier [db.t.branch1]
    is not consulted: with an identifier built from the response that has no
    branch, nothing is injected.  And for the identifier [db.t] the branch key
    is present as soon as the declared options have it. *)
Lemma branch_key_not_by_caller_identifier :
  result_options
    (load_table_metadata "path" "branch" Examples.create_plain
       (Examples.catalog (Examples.table_t ∅ []) None PyNone)
       (Identifier.mk "db" "t" (Some "branch1")) Examples.empty_store)
  ≫= (fun o => o !! "branch")
  = None
  /\ result_options
       (load_table_metadata "path" "branch" Examples.create_plain
          (Examples.catalog (Examples.table_t {["branch" := "declared"]} []) None PyNone)
          (Identifier.mk "db" "t" None) Examples.empty_store)
     ≫= (fun o => o !! "branch")
     = Some "declared".
Proof. split; vm_compute; reflexivity. Qed.

(** ** Resolving twice, and what a resolution leaves untouched *)

Section Idempotence.
Context {R DataField : Type}.
Variables PATH BRANCH : string.
Variable Identifier_create : string -> string -> Identifier.t.
Variable self : RESTCatalog R DataField.
Implicit Types (σ : Store R) (d : TableData DataField)
         (response : GetTableResponse DataField).

(** Two dictionaries allocated one after the other are different objects. *)
Lemma fresh_after_insert (h : gmap loc Dict) (l : loc) (o : Dict) :
  fresh (dom (<[l := o]> h)) ≠ l.
Proof.
  intros E. apply (is_fresh (dom (<[l := o]> h))).
  rewrite E at 1. rewrite dom_insert. set_solver.
Qed.

Lemma fresh_after_insert2 (h : gmap loc Dict) (l1 l2 : loc) (o1 o2 : Dict) :
  fresh (dom (<[l2 := o2]> (<[l1 := o1]> h))) ≠ l1.
Proof.
  intros E. apply (is_fresh (dom (<[l2 := o2]> (<[l1 := o1]> h)))).
  rewrite E at 1. rewrite !dom_insert. set_solver.
Qed.

(** C5.  Resolving the same identifier twice, the service answering both
    times with the same response: both resolutions return, the two
    [TableMetadata] agree field for field and option for option, and the
    second resolution does not disturb the result of the first. *)
Theorem load_table_metadata_twice identifier σ d s1 s2 :
  remote_get_table (api self) identifier (remote σ) = (Return d, s1) ->
  remote_get_table (api self) identifier s1 = (Return d, s2) ->
  exists tm1 σ1 tm2 σ2,
    load_table_metadata PATH BRANCH Identifier_create self identifier σ = (Return tm1, σ1)
    /\ load_table_metadata PATH BRANCH Identifier_create self identifier σ1 = (Return tm2, σ2)
    /\ view σ2 tm1 = view σ2 tm2
    /\ view σ2 tm1 = view σ1 tm1.
Proof.
  intros H1 H2.
  pose proof (load_table_metadata_run PATH BRANCH Identifier_create self
                identifier σ d s1 H1) as E1.
  cbv zeta in E1.
  set (l1 := fresh (dom (heap σ))) in *.
  set (l2 := fresh (dom (<[l1 := sd_options (td_schema d)]> (heap σ)))) in *.
  set (σ1 := loaded_store PATH BRANCH Identifier_create identifier σ d s1 l1 l2) in *.
  assert (Hr : remote_get_table (api self) identifier (remote σ1) = (Return d, s2))
    by exact H2.
  pose proof (load_table_metadata_run PATH BRANCH Identifier_create self
                identifier σ1 d s2 Hr) as E2.
  cbv zeta in E2.
  set (l3 := fresh (dom (heap σ1))) in *.
  set (l4 := fresh (dom (<[l3 := sd_options (td_schema d)]> (heap σ1)))) in *.
  eexists _, σ1, _, _. split; [exact E1|]. split; [exact E2|].
  assert (N3 : l3 ≠ l2) by apply fresh_after_insert.
  assert (N4 : l4 ≠ l2) by apply fresh_after_insert2.
  unfold view, deref, loaded_store. simpl.
  rewrite lookup_insert_eq.
  rewrite (lookup_insert_ne _ l4 l2) by done.
  rewrite (lookup_insert_ne _ l3 l2) by done.
  rewrite lookup_insert_eq. done.
Qed.

(** C8.  A resolution works on a copy.  The dictionary of declared options
    held by the fetched schema has the same contents afterwards, no dictionary
    that existed before is changed, the options of the result are a new
    dictionary, and the schema of the result is the fetched one with that
    dictionary in place of the options: fields, partition keys, primary keys
    and comment are those of the fetched schema. *)
Theorem to_table_metadata_copies db response σ declared :
  heap σ !! options (get_schema response) = Some declared ->
  exists tm σ',
    to_table_metadata PATH BRANCH Identifier_create db response σ = (Return tm, σ')
    /\ heap σ' !! options (get_schema response) = Some declared
    /\ (forall l, l ∈ dom (heap σ) -> heap σ' !! l = heap σ !! l)
    /\ (options (schema tm) ∉ dom (heap σ))
    /\ options (schema tm) ≠ options (get_schema response)
    /\ schema tm = Schema_copy (get_schema response) (options (schema tm))
    /\ (fields (schema tm), partition_keys (schema tm), primary_keys (schema tm),
        comment (schema tm))
       = (fields (get_schema response), partition_keys (get_schema response),
          primary_keys (get_schema response), comment (get_schema response))
    /\ heap σ' !! options (schema tm)
       = Some (resolved_options PATH BRANCH Identifier_create db response declared)
    /\ calls σ' = calls σ /\ remote σ' = remote σ.
Proof.
  intros Hd. eexists _, _. split; [apply to_table_metadata_run|].
  simpl.
  assert (Hne : fresh (dom (heap σ)) ≠ options (get_schema response)).
  { intros E. pose proof (fresh_loc_unused σ) as F. rewrite E in F. congruence. }
  repeat split.
  - by rewrite lookup_insert_ne.
  - intros l Hl. rewrite lookup_insert_ne; [done|].
    intros E. subst l. by apply (is_fresh (dom (heap σ))).
  - apply is_fresh.
  - done.
  - rewrite lookup_insert_eq. by rewrite (deref_heap _ _ _ Hd).
Qed.

(** C9.  The caller's identifier reaches the resolution only through its
    database name.  Two identifiers of the same database for which the
    service gives the same response resolve to the same [TableMetadata] and
    the same dictionaries, whatever their table and branch components; the
    branch key is written exactly when the identifier built from the database
    name and the name in the response carries a branch, with that branch. *)
Theorem branch_injection_from_response ida idb σ d s :
  Identifier.get_database_name ida = Identifier.get_database_name idb ->
  remote_get_table (api self) ida (remote σ) = (Return d, s) ->
  remote_get_table (api self) idb (remote σ) = (Return d, s) ->
  exists tm σa σb,
    load_table_metadata PATH BRANCH Identifier_create self ida σ = (Return tm, σa)
    /\ load_table_metadata PATH BRANCH Identifier_create self idb σ = (Return tm, σb)
    /\ heap σa = heap σb
    /\ deref σa (options (schema tm))
       = match Identifier.get_branch_name
                 (Identifier_create (Identifier.get_database_name ida) (td_name d)) with
         | Some b =>
             <[BRANCH := b]>
               (apply_audit (td_audit d) (<[PATH := td_path d]> (sd_options (td_schema d))))
         | None =>
             apply_audit (td_audit d) (<[PATH := td_path d]> (sd_options (td_schema d)))
         end.
Proof.
  intros Hdb Ha Hb.
  eexists _, _, _. split; [by apply load_table_metadata_run|].
  split; [by apply load_table_metadata_run|].
  unfold loaded_store. simpl. rewrite Hdb. split; [done|].
  unfold deref. simpl. by rewrite lookup_insert_eq.
Qed.

End Idempotence.

(** An instance: table [db.t] resolved twice against a service that does not
    change. *)
Lemma load_table_metadata_twice_witness :
  exists tm1 σ1 tm2 σ2,
    load_table_metadata "path" "branch" Examples.create_plain
      (Examples.catalog (Examples.table_t {["bucket" := "4"]} [("owner", "alice")]) None PyNone)
      (Identifier.mk "db" "t" None) Examples.empty_store
    = (Return tm1, σ1)
    /\ load_table_metadata "path" "branch" Examples.create_plain
         (Examples.catalog (Examples.table_t {["bucket" := "4"]} [("owner", "alice")]) None PyNone)
         (Identifier.mk "db" "t" None) σ1
       = (Return tm2, σ2)
    /\ view σ2 tm1 = view σ2 tm2
    /\ view σ2 tm1 = view σ1 tm1.
Proof.
  exact (load_table_metadata_twice "path" "branch" Examples.create_plain
           (Examples.catalog (Examples.table_t {["bucket" := "4"]} [("owner", "alice")])
              None PyNone)
           (Identifier.mk "db" "t" None) Examples.empty_store
           (Examples.table_t {["bucket" := "4"]} [("owner", "alice")]) tt tt
           eq_refl eq_refl).
Defined.

(** An instance: a fetched schema whose options are the dictionary at [1]. *)
Lemma to_table_metadata_copies_witness :
  exists tm σ',
    to_table_metadata "path" "branch" Examples.create_plain "db"
      (response_of (Examples.table_t ∅ [("owner", "alice")]) 1%positive)
      {| heap := {[1%positive := {["bucket" := "4"]}]}; calls := []; remote := tt |}
    = (Return tm, σ')
    /\ heap σ' !! 1%positive = Some {["bucket" := "4"]}
    /\ options (schema tm) ≠ 1%positive.
Proof.
  destruct (to_table_metadata_copies "path" "branch" Examples.create_plain "db"
              (response_of (Examples.table_t ∅ [("owner", "alice")]) 1%positive)
              {| heap := {[1%positive := {["bucket" := "4"]}]}; calls := []; remote := tt |}
              {["bucket" := "4"]} (lookup_singleton_eq _ _))
    as (tm & σ' & Hrun & Hsame & _ & _ & Hnew & _).
  exists tm, σ'. exact (conj Hrun (conj Hsame Hnew)).
Defined.

(** An instance: [db.t] asked for on two different branches, the service
    giving the same response. *)
Lemma branch_injection_from_response_witness :
  exists tm σa σb,
    load_table_metadata "path" "branch" Examples.create_plain
      (Examples.catalog (Examples.table_t ∅ []) None PyNone)
      (Identifier.mk "db" "t" (Some "branch1")) Examples.empty_store
    = (Return tm, σa)
    /\ load_table_metadata "path" "branch" Examples.create_plain
         (Examples.catalog (Examples.table_t ∅ []) None PyNone)
         (Identifier.mk "db" "t" (Some "branch2")) Examples.empty_store
       = (Return tm, σb)
    /\ heap σa = heap σb.
Proof.
  destruct (branch_injection_from_response "path" "branch" Examples.create_plain
              (Examples.catalog (Examples.table_t ∅ []) None PyNone)
              (Identifier.mk "db" "t" (Some "branch1"))
              (Identifier.mk "db" "t" (Some "branch2"))
              Examples.empty_store (Examples.table_t ∅ []) tt eq_refl eq_refl eq_refl)
    as (tm & σa & σb & Ha & Hb & Hh & _).
  exists tm, σa, σb. exact (conj Ha (conj Hb Hh)).
Defined.

(** ** Resolution of a database *)

Section DatabaseLocation.
Context {R DataField : Type}.
Variable DB_LOCATION_PROP : string.
Variable self : RESTCatalog R DataField.
Implicit Types (σ : Store R).

(** C6, as amended.  Whenever [get_database] returns, it returns a
    [Database] of the requested name whose properties are the options the
    service sent, overlaid with the reported location and then with the audit
    pairs.  The location key is therefore always present; the reported
    location is written whether or not the options already had the key, and
    the key holds the reported location unless an audit pair carries the same
    key, whose value it then holds. *)
Theorem get_database_location name σ x σ' :
  get_database DB_LOCATION_PROP self name σ = (Return x, σ') ->
  exists (d : DatabaseData) s db,
    remote_get_database (api self) name (remote σ) = (Return (Some d), s)
    /\ x = Some db
    /\ db_name db = name
    /\ deref σ' (db_properties db)
       = apply_audit (dd_audit d) (<[DB_LOCATION_PROP := dd_location d]> (dd_options d))
    /\ deref σ' (db_properties db) !! DB_LOCATION_PROP
       = Some (default (dd_location d) (audit_value (dd_audit d) DB_LOCATION_PROP)).
Proof.
  intros Hrun.
  destruct (get_database_returns _ _ _ _ _ _ Hrun) as (d & s & Hd).
  rewrite (get_database_run _ _ _ _ _ _ Hd) in Hrun.
  injection Hrun as <- <-.
  exists d, s, (mkDatabase name (fresh (dom (heap σ)))).
  split; [done|]. split; [done|]. split; [done|].
  unfold deref. simpl. rewrite lookup_insert_eq. simpl.
  split; [done|].
  unfold resolved_properties. rewrite lookup_apply_audit.
  destruct (audit_value (dd_audit d) DB_LOCATION_PROP); [done|].
  apply lookup_insert_eq.
Qed.

End DatabaseLocation.

(** An instance: database [db], whose options have no location. *)
Lemma get_database_location_witness :
  exists (d : DatabaseData) s db,
    remote_get_database
      (api (Examples.catalog (Examples.table_t ∅ []) (Some (Examples.database_db ∅ [])) PyNone))
      "db" tt
    = (Return (Some d), s)
    /\ Some (mkDatabase "db" 1%positive) = Some db
    /\ db_name db = "db"
    /\ deref {| heap := {[1%positive := {["location" := "/warehouse/db.db"]}]};
                calls := [ApiGetDatabase "db"]; remote := tt |} (db_properties db)
       = apply_audit (dd_audit d) (<["location" := dd_location d]> (dd_options d))
    /\ deref {| heap := {[1%positive := {["location" := "/warehouse/db.db"]}]};
                calls := [ApiGetDatabase "db"]; remote := tt |} (db_properties db)
       !! "location"
       = Some (default (dd_location d) (audit_value (dd_audit d) "location")).
Proof.
  apply (get_database_location "location"
           (Examples.catalog (Examples.table_t ∅ []) (Some (Examples.database_db ∅ [])) PyNone)
           "db" Examples.empty_store).
  vm_compute. reflexivity.
Defined.

(** C6, as stated, fails where the options sent by the service already have
    the location key: the value [old] is not preserved, the reported location
    takes its place. *)
Lemma get_database_overwrites_location :
  dd_options (Examples.database_db {["location" := "old"]} []) !! "location" = Some "old"
  /\ result_properties
       (get_database "location"
          (Examples.catalog (Examples.table_t ∅ [])
             (Some (Examples.database_db {["location" := "old"]} [])) PyNone)
          "db" Examples.empty_store)
     ≫= (fun o => o !! "location")
     = Some "/warehouse/db.db".
Proof. split; vm_compute; reflexivity. Qed.

(** ** The reduction of property changes *)

Section Reduction.
Import PropertyChange.
Implicit Types (c : PropertyChange.t) (acc : Dict * gset string) (k : string).

Lemma reduce_snoc changes c :
  get_set_properties_to_remove_keys (changes ++ [c])
  = apply_change (get_set_properties_to_remove_keys changes) c.
Proof. unfold get_set_properties_to_remove_keys. by rewrite fold_left_app. Qed.

(** One step keeps the keys to remove apart from the keys to set. *)
Lemma apply_change_disjoint acc c :
  dom (fst acc) ## snd acc -> dom (fst (apply_change acc c)) ## snd (apply_change acc c).
Proof.
  destruct acc as [m r], c as [k v|k]; simpl; intros Hdisj.
  - rewrite dom_insert_L. intros x Hx Hr.
    apply elem_of_difference in Hr as [Hr Hk].
    apply elem_of_union in Hx as [Hx|Hx]; [done|]. by apply (Hdisj x).
  - rewrite dom_delete_L. intros x Hx Hr.
    apply elem_of_difference in Hx as [Hx Hk].
    apply elem_of_union in Hr as [Hr|Hr]; [by apply (Hdisj x)|done].
Qed.

Lemma fold_apply_change_disjoint changes acc :
  dom (fst acc) ## snd acc ->
  dom (fst (fold_left apply_change changes acc))
  ## snd (fold_left apply_change changes acc).
Proof.
  revert acc. induction changes as [|c rest IH]; intros acc H; [done|].
  simpl. by apply IH, apply_change_disjoint.
Qed.

(** A change leaves the other keys as they were. *)
Lemma apply_change_other acc c k :
  key_of c ≠ k ->
  fst (apply_change acc c) !! k = fst acc !! k
  /\ (k ∈ snd (apply_change acc c) <-> k ∈ snd acc).
Proof.
  destruct acc as [m r], c as [k' v|k']; simpl; intros Hk.
  - rewrite lookup_insert_ne by done. split; [done|].
    rewrite elem_of_difference, elem_of_singleton. intuition congruence.
  - rewrite lookup_delete_ne by done. split; [done|].
    rewrite elem_of_union, elem_of_singleton. intuition congruence.
Qed.

Lemma fold_apply_change_other changes acc k :
  Forall (fun c => key_of c ≠ k) changes ->
  fst (fold_left apply_change changes acc) !! k = fst acc !! k
  /\ (k ∈ snd (fold_left apply_change changes acc) <-> k ∈ snd acc).
Proof.
  intros H. revert acc. induction H as [|c rest Hc _ IH]; intros acc; [done|].
  simpl. destruct (IH (apply_change acc c)) as [-> ->].
  by apply apply_change_other.
Qed.

Lemma apply_change_recorded acc c : recorded c (apply_change acc c).
Proof.
  destruct acc as [m r], c as [k v|k]; simpl.
  - rewrite lookup_insert_eq. split; [done|].
    rewrite elem_of_difference, elem_of_singleton. intuition congruence.
  - rewrite lookup_delete_eq. split; [done|].
    rewrite elem_of_union, elem_of_singleton. intuition congruence.
Qed.

Lemma last_change_recorded before c after :
  Forall (fun c' => key_of c' ≠ key_of c) after ->
  recorded c (get_set_properties_to_remove_keys (before ++ c :: after)).
Proof.
  intros H. unfold get_set_properties_to_remove_keys.
  rewrite fold_left_app. simpl.
  set (acc := fold_left apply_change before (∅, ∅)).
  pose proof (apply_change_recorded acc c) as Hc.
  destruct (fold_apply_change_other after (apply_change acc c) (key_of c) H) as [E1 E2].
  destruct c as [k v|k]; simpl in *.
  - rewrite E1, E2. done.
  - rewrite E1, E2. done.
Qed.

End Reduction.

(** C7.  The reduction used by [alter_database] is a left-to-right fold: a
    batch extended by one change reduces to the step of that change on the
    reduced batch.  The keys to remove are disjoint from the keys of the set
    map.  A change after which no later change touches its key decides what is
    recorded for that key, whichever variants came before.  The two batches of
    the specification reduce as it says, and [alter_database] makes exactly one
    call, forwarding the two parts of the reduction. *)
Theorem property_change_reduction :
  (forall changes c,
      PropertyChange.get_set_properties_to_remove_keys (changes ++ [c])
      = PropertyChange.apply_change
          (PropertyChange.get_set_properties_to_remove_keys changes) c)
  /\ (forall changes,
         dom (fst (PropertyChange.get_set_properties_to_remove_keys changes))
         ## snd (PropertyChange.get_set_properties_to_remove_keys changes))
  /\ (forall before c after,
         Forall (fun c' => PropertyChange.key_of c' ≠ PropertyChange.key_of c) after ->
         PropertyChange.recorded c
           (PropertyChange.get_set_properties_to_remove_keys (before ++ c :: after)))
  /\ PropertyChange.get_set_properties_to_remove_keys
       [PropertyChange.SetProperty "a" "1"; PropertyChange.RemoveProperty "a";
        PropertyChange.SetProperty "b" "2"]
     = ({["b" := "2"]}, {["a"]})
  /\ PropertyChange.get_set_properties_to_remove_keys
       [PropertyChange.RemoveProperty "a"; PropertyChange.SetProperty "a" "1"]
     = ({["a" := "1"]}, ∅)
  /\ (forall R DataField (self : RESTCatalog R DataField) name changes (σ : Store R),
         calls (snd (alter_database self name changes σ))
         = calls σ ++
             [ApiAlterDatabase name
                (elements (snd (PropertyChange.get_set_properties_to_remove_keys changes)))
                (fst (PropertyChange.get_set_properties_to_remove_keys changes))]).
Proof.
  split; [exact reduce_snoc|].
  split; [intros changes; apply fold_apply_change_disjoint; simpl; set_solver|].
  split; [exact last_change_recorded|].
  split; [vm_compute; reflexivity|].
  split; [vm_compute; reflexivity|].
  intros R DataField self name changes σ. unfold alter_database.
  destruct (PropertyChange.get_set_properties_to_remove_keys changes) as [m r].
  unfold RESTApi_alter_database, api_call. simpl.
  by destruct (remote_alter_database _ _ _ _ _).
Qed.

(** An instance: a set of [a] after its removal; nothing later touches [a]. *)
Lemma property_change_reduction_witness :
  PropertyChange.recorded (PropertyChange.SetProperty "a" "1")
    (PropertyChange.get_set_properties_to_remove_keys
       ([PropertyChange.RemoveProperty "a"] ++
        PropertyChange.SetProperty "a" "1" :: [PropertyChange.SetProperty "b" "2"])).
Proof.
  apply (proj1 (proj2 (proj2 property_change_reduction))).
  repeat constructor; simpl; discriminate.
Defined.

(** ** The facade: create_table, create_database, file access *)

(** C3.  [create_table] fails on every input: it raises
    [ValueError("Not implemented")], the error by which this client reports an
    unsupported operation.  The store it leaves is the one it started from, so
    no call has been made to the remote service, and it never returns. *)
Theorem create_table_unsupported {R DataField : Type}
        (identifier : string + Identifier.t) (sch : Schema DataField)
        (ignore_if_exists : bool) (σ : Store R) :
  create_table identifier sch ignore_if_exists σ = (Raise (ValueError "Not implemented"), σ)
  /\ calls (snd (create_table identifier sch ignore_if_exists σ)) = calls σ
  /\ remote (snd (create_table identifier sch ignore_if_exists σ)) = remote σ
  /\ (forall x σ', create_table identifier sch ignore_if_exists σ ≠ (Return x, σ')).
Proof. repeat split. intros x σ'. discriminate. Qed.

(** C10.  [create_database] does not consult [ignore_if_exists]: with either
    value it makes the one call [create_database(name, properties)] and ends
    with the same outcome in the same store. *)
Theorem create_database_ignores_flag {R DataField : Type} (self : RESTCatalog R DataField)
        (name : string) (properties : option Dict) (σ : Store R) :
  create_database self name true properties σ = create_database self name false properties σ
  /\ (forall flag,
         calls (snd (create_database self name flag properties σ))
         = calls σ ++ [ApiCreateDatabase name properties])
  /\ (forall flag,
         fst (create_database self name flag properties σ)
         = fst (remote_create_database (api self) name properties (remote σ))).
Proof.
  split; [reflexivity|].
  split; intros flag; unfold create_database, RESTApi_create_database, api_call;
    by destruct (remote_create_database _ _ _ _).
Qed.


(** * Further properties of the catalog *)


(** ** get_database: failures, contents, sharing *)

Section GetDatabase.
Context {R DataField : Type}.
Variable DB_LOCATION_PROP : string.
Variable self : RESTCatalog R DataField.
Implicit Types (σ : Store R) (d : DatabaseData).

(** X1.  When the API gives [None] for the database, [get_database] does not
    return [None]: the response is used before it is tested, so the call ends
    in an [AttributeError], after the one call to the service and without any
    dictionary having been created. *)
Theorem get_database_none_response name σ s :
  remote_get_database (api self) name (remote σ) = (Return None, s) ->
  get_database DB_LOCATION_PROP self name σ
  = (Raise (AttributeError "'NoneType' object has no attribute 'options'"),
     {| heap := heap σ; calls := calls σ ++ [ApiGetDatabase name]; remote := s |}).
Proof.
  intros Hd. unfold get_database, RESTApi_get_database, bind, api_call.
  by rewrite Hd.
Qed.

(** X2.  An exception of the service comes out of [get_database] as it is: nothing
    is caught, the store holds the dictionaries it held, and the call is in the
    log. *)
Theorem get_database_service_error name σ e s :
  remote_get_database (api self) name (remote σ) = (Raise e, s) ->
  get_database DB_LOCATION_PROP self name σ
  = (Raise e, {| heap := heap σ; calls := calls σ ++ [ApiGetDatabase name]; remote := s |}).
Proof.
  intros Hd. unfold get_database, RESTApi_get_database, bind, api_call.
  by rewrite Hd.
Qed.

(** X3.  The properties of a resolved database, key by key: an audit pair wins
    over everything (nothing is written after the audit pairs, also not under
    the location key); the location key otherwise holds the reported location;
    every other key holds what the service sent, and is absent if it sent
    nothing for it. *)
Theorem get_database_properties name σ d s k :
  remote_get_database (api self) name (remote σ) = (Return (Some d), s) ->
  result_properties (get_database DB_LOCATION_PROP self name σ) ≫= (fun o => o !! k)
  = match audit_value (dd_audit d) k with
    | Some v => Some v
    | None => if decide (k = DB_LOCATION_PROP) then Some (dd_location d)
              else dd_options d !! k
    end.
Proof.
  intros Hd. rewrite (get_database_run _ _ _ _ _ _ Hd).
  unfold result_properties, deref. simpl. rewrite lookup_insert_eq. simpl.
  unfold resolved_properties. rewrite lookup_apply_audit.
  destruct (audit_value (dd_audit d) k); [done|].
  rewrite lookup_insert. case_decide; subst.
  - by rewrite decide_True.
  - by rewrite decide_False by congruence.
Qed.

(** X4.  [get_database] makes no copy.  The [Database] holds the very dictionary
    of the response that the API client produced: relative to the store the
    client left, no dictionary is created, that dictionary is the only one
    written, and it was holding the options as the service sent them. *)
Theorem get_database_shares_response_options name σ response σ0 :
  RESTApi_get_database (api self) name σ = (Return (Some response), σ0) ->
  exists σ',
    get_database DB_LOCATION_PROP self name σ
    = (Return (Some (mkDatabase name (response_options response))), σ')
    /\ dom (heap σ') = dom (heap σ0)
    /\ (forall l, l ≠ response_options response -> heap σ' !! l = heap σ0 !! l)
    /\ heap σ' !! response_options response
       = Some (apply_audit (database_audit response)
                 (<[DB_LOCATION_PROP := response_location response]>
                    (deref σ0 (response_options response))))
    /\ calls σ' = calls σ0 /\ remote σ' = remote σ0.
Proof.
  intros Hapi.
  assert (Hin : is_Some (heap σ0 !! response_options response)).
  { revert Hapi. unfold RESTApi_get_database, bind, api_call.
    destruct (remote_get_database (api self) name (remote σ)) as [[[d|]|e] s];
      simpl; intros H; try discriminate.
    injection H as <- <-. simpl. rewrite lookup_insert_eq. by eexists. }
  destruct Hin as [o Ho].
  unfold get_database, bind. rewrite Hapi.
  unfold dict_setitem at 1.
  erewrite put_audit_options_to_run by (simpl; apply lookup_insert_eq).
  rewrite set_heap_set_heap. simpl heap. rewrite insert_insert_eq.
  rewrite (deref_heap _ _ _ Ho).
  eexists. split; [reflexivity|]. simpl.
  split.
  { rewrite dom_insert_L. apply elem_of_dom_2 in Ho.
    apply set_eq. intros x. rewrite elem_of_union, elem_of_singleton.
    split; [intros [->|]; done | by right]. }
  split; [intros l Hl; by rewrite lookup_insert_ne|].
  split; [by rewrite lookup_insert_eq|done].
Qed.


End GetDatabase.

(** An instance: the API gives [None] for database [db]. *)
Lemma get_database_none_response_witness :
  get_database "location" (Examples.catalog (Examples.table_t ∅ []) None PyNone)
    "db" Examples.empty_store
  = (Raise (AttributeError "'NoneType' object has no attribute 'options'"),
     {| heap := ∅; calls := [ApiGetDatabase "db"]; remote := tt |}).
Proof.
  exact (get_database_none_response "location"
           (Examples.catalog (Examples.table_t ∅ []) None PyNone)
           "db" Examples.empty_store tt eq_refl).
Defined.

(** An instance: the service refuses with "no such database". *)
Lemma get_database_service_error_witness :
  get_database "location"
    {| api := Fixtures.failing_service (RemoteError "no such database");
       data_token_enabled := PyNone |}
    "missing" Examples.empty_store
  = (Raise (RemoteError "no such database"),
     {| heap := ∅; calls := [ApiGetDatabase "missing"]; remote := tt |}).
Proof.
  exact (get_database_service_error "location"
           {| api := Fixtures.failing_service (RemoteError "no such database");
              data_token_enabled := PyNone |}
           "missing" Examples.empty_store (RemoteError "no such database") tt eq_refl).
Defined.

(** An instance: an audit pair under the location key. *)
Lemma get_database_properties_witness :
  result_properties
    (get_database "location"
       (Examples.catalog (Examples.table_t ∅ [])
          (Some (Examples.database_db {["location" := "old"]} [("location", "audited")]))
          PyNone)
       "db" Examples.empty_store)
  ≫= (fun o => o !! "location")
  = Some "audited".
Proof.
  exact (get_database_properties "location"
           (Examples.catalog (Examples.table_t ∅ [])
              (Some (Examples.database_db {["location" := "old"]} [("location", "audited")]))
              PyNone)
           "db" Examples.empty_store
           (Examples.database_db {["location" := "old"]} [("location", "audited")])
           tt "location" eq_refl).
Defined.

(** An instance: the response for database [db] is built at reference [1]. *)
Lemma get_database_shares_response_options_witness :
  exists σ',
    get_database "location"
      (Examples.catalog (Examples.table_t ∅ []) (Some (Examples.database_db ∅ [])) PyNone)
      "db" Examples.empty_store
    = (Return (Some (mkDatabase "db" 1%positive)), σ')
    /\ dom (heap σ') = dom ({[1%positive := ∅]} : gmap loc Dict).
Proof.
  assert (Hapi :
    RESTApi_get_database
      (api (Examples.catalog (Examples.table_t ∅ [])
              (Some (Examples.database_db ∅ [])) PyNone))
      "db" Examples.empty_store
    = (Return (Some {| response_options := 1%positive;
                       response_location := "/warehouse/db.db";
                       database_audit := [] |}),
       {| heap := {[1%positive := (∅ : Dict)]};
          calls := [ApiGetDatabase "db"]; remote := tt |}))
    by (vm_compute; reflexivity).
  destruct (get_database_shares_response_options "location" _ _ _ _ _ Hapi)
    as (σ' & Hrun & Hdom & _).
  exists σ'. exact (conj Hrun Hdom).
Defined.


(** ** to_table_metadata: what the resolved options hold *)

(** The keys after the audit pairs: those before, and those of the pairs. *)
Lemma dom_apply_audit (audit : list (string * string)) (o : Dict) :
  dom (apply_audit audit o) = dom o ∪ list_to_set (fst <$> audit).
Proof.
  revert o. induction audit as [|[k v] rest IH]; intros o.
  - simpl. by rewrite union_empty_r_L.
  - rewrite apply_audit_cons, IH, dom_insert_L. simpl.
    apply set_eq. intros x.
    rewrite !elem_of_union, elem_of_singleton. tauto.
Qed.

Section ResolvedOptions.
Context {R DataField : Type}.
Variables PATH BRANCH : string.
Variable Identifier_create : string -> string -> Identifier.t.
Implicit Types (σ : Store R) (response : GetTableResponse DataField).

(** X6.  The path key is present after every resolution.  It holds the path of
    the response, unless an audit pair carries the path key, whose value it
    then holds; only a branch injected under a branch key equal to the path key
    would replace that. *)
Theorem to_table_metadata_path db response σ :
  result_options (to_table_metadata PATH BRANCH Identifier_create db response σ)
  ≫= (fun o => o !! PATH)
  = Some (match Identifier.get_branch_name (Identifier_create db (get_name response)) with
          | Some b =>
              if decide (PATH = BRANCH) then b
              else default (get_path response) (audit_value (table_audit response) PATH)
          | None => default (get_path response) (audit_value (table_audit response) PATH)
          end).
Proof.
  rewrite to_table_metadata_run. unfold result_options. simpl.
  rewrite deref_set_heap_eq. unfold resolved_options, options_before_branch.
  assert (Hbase :
    apply_audit (table_audit response)
      (<[PATH := get_path response]> (deref σ (options (get_schema response)))) !! PATH
    = Some (default (get_path response) (audit_value (table_audit response) PATH))).
  { rewrite lookup_apply_audit.
    destruct (audit_value (table_audit response) PATH); [done|].
    apply lookup_insert_eq. }
  destruct (Identifier.get_branch_name _) as [b|]; [|exact Hbase].
  case_decide as E.
  - rewrite E. apply lookup_insert_eq.
  - rewrite lookup_insert_ne by congruence. exact Hbase.
Qed.

(** X7.  A declared option that is neither the path key nor the branch key, and
    for which the response has no audit pair, comes through the resolution
    unchanged; a key that was not declared stays absent. *)
Theorem to_table_metadata_keeps_declared db response σ k :
  k ≠ PATH ->
  k ≠ BRANCH ->
  audit_value (table_audit response) k = None ->
  result_options (to_table_metadata PATH BRANCH Identifier_create db response σ)
  ≫= (fun o => o !! k)
  = deref σ (options (get_schema response)) !! k.
Proof.
  intros HP HB HA. rewrite to_table_metadata_run. unfold result_options. simpl.
  rewrite deref_set_heap_eq. unfold resolved_options, options_before_branch.
  destruct (Identifier.get_branch_name _) as [b|].
  - rewrite lookup_insert_ne by congruence.
    rewrite lookup_apply_audit, HA. by rewrite lookup_insert_ne by congruence.
  - rewrite lookup_apply_audit, HA. by rewrite lookup_insert_ne by congruence.
Qed.

(** X8.  The keys of the resolved options are exactly the declared keys, the path
    key, the keys of the audit pairs and, when a branch is injected, the branch
    key: no declared option is dropped and nothing else is added. *)
Theorem to_table_metadata_keys db response σ :
  dom <$> result_options (to_table_metadata PATH BRANCH Identifier_create db response σ)
  = Some (dom (deref σ (options (get_schema response)))
          ∪ {[PATH]}
          ∪ list_to_set (fst <$> table_audit response)
          ∪ match Identifier.get_branch_name
                    (Identifier_create db (get_name response)) with
            | Some _ => {[BRANCH]}
            | None => ∅
            end).
Proof.
  rewrite to_table_metadata_run. unfold result_options. simpl.
  rewrite deref_set_heap_eq. unfold resolved_options, options_before_branch.
  f_equal.
  destruct (Identifier.get_branch_name _) as [b|].
  - rewrite dom_insert_L, dom_apply_audit, dom_insert_L.
    apply set_eq. intros x. rewrite !elem_of_union, !elem_of_singleton. tauto.
  - rewrite dom_apply_audit, dom_insert_L.
    apply set_eq. intros x.
    rewrite !elem_of_union, !elem_of_singleton, elem_of_empty. tauto.
Qed.

End ResolvedOptions.

(** An instance: the declared option [bucket], next to an audit pair for
    another key. *)
Lemma to_table_metadata_keeps_declared_witness :
  result_options
    (to_table_metadata "path" "branch" (Examples.create_on_branch "b1") "db"
       (response_of (Examples.table_t ∅ [("owner", "alice")]) 1%positive)
       {| heap := {[1%positive := {["bucket" := "4"]}]}; calls := []; remote := tt |})
  ≫= (fun o => o !! "bucket")
  = deref {| heap := {[1%positive := {["bucket" := "4"]}]}; calls := []; remote := tt |}
      1%positive !! "bucket".
Proof.
  apply (to_table_metadata_keeps_declared "path" "branch" (Examples.create_on_branch "b1") "db"
           (response_of (Examples.table_t ∅ [("owner", "alice")]) 1%positive)
           {| heap := {[1%positive := {["bucket" := "4"]}]}; calls := []; remote := tt |}
           "bucket").
  - discriminate.
  - discriminate.
  - reflexivity.
Defined.

(** ** Calls to the service: failures and their number *)

Section ServiceCalls.
Context {R DataField : Type}.
Variables PATH BRANCH DB_LOCATION_PROP : string.
Variable Identifier_create : string -> string -> Identifier.t.
Variable self : RESTCatalog R DataField.
Implicit Types (σ : Store R).

(** X9.  An exception of the service on [get_table] comes out of
    [load_table_metadata] as it is: the resolution is not entered, no
    dictionary is created, and the call is in the log. *)
Theorem load_table_metadata_service_error identifier σ e s :
  remote_get_table (api self) identifier (remote σ) = (Raise e, s) ->
  load_table_metadata PATH BRANCH Identifier_create self identifier σ
  = (Raise e,
     {| heap := heap σ; calls := calls σ ++ [ApiGetTable identifier]; remote := s |}).
Proof.
  intros Hd. unfold load_table_metadata, RESTApi_get_table, bind, api_call.
  by rewrite Hd.
Qed.

(** X10.  Whatever the service answers, [load_table_metadata] and [get_database]
    call it exactly once, with the identifier, respectively the name, they
    were given, and leave it in the state in which that one call left it:
    nothing is retried and nothing is asked a second time. *)
Theorem one_call_per_resolution identifier name σ :
  (calls (snd (load_table_metadata PATH BRANCH Identifier_create self identifier σ))
   = calls σ ++ [ApiGetTable identifier]
   /\ remote (snd (load_table_metadata PATH BRANCH Identifier_create self identifier σ))
      = snd (remote_get_table (api self) identifier (remote σ)))
  /\ (calls (snd (get_database DB_LOCATION_PROP self name σ))
      = calls σ ++ [ApiGetDatabase name]
      /\ remote (snd (get_database DB_LOCATION_PROP self name σ))
         = snd (remote_get_database (api self) name (remote σ))).
Proof.
  split.
  - destruct (remote_get_table (api self) identifier (remote σ)) as [[d|e] s] eqn:E.
    + pose proof (load_table_metadata_run PATH BRANCH Identifier_create self
                    identifier σ d s E) as Hrun.
      cbv zeta in Hrun. rewrite Hrun. done.
    + unfold load_table_metadata, RESTApi_get_table, bind, api_call.
      rewrite E. done.
  - destruct (remote_get_database (api self) name (remote σ)) as [[[d|]|e] s] eqn:E.
    + rewrite (get_database_run _ _ _ _ _ _ E). done.
    + unfold get_database, RESTApi_get_database, bind, api_call. rewrite E. done.
    + unfold get_database, RESTApi_get_database, bind, api_call. rewrite E. done.
Qed.

(** X11.  [alter_database] ends as the service's call ends, an exception of the
    service included, and touches no dictionary; the keys to remove are
    forwarded as a list without repetition. *)
Theorem alter_database_outcome name changes σ :
  fst (alter_database self name changes σ)
  = fst (remote_alter_database (api self) name
           (elements (snd (PropertyChange.get_set_properties_to_remove_keys changes)))
           (fst (PropertyChange.get_set_properties_to_remove_keys changes)) (remote σ))
  /\ heap (snd (alter_database self name changes σ)) = heap σ
  /\ NoDup (elements (snd (PropertyChange.get_set_properties_to_remove_keys changes))).
Proof.
  unfold alter_database.
  destruct (PropertyChange.get_set_properties_to_remove_keys changes) as [m r]. simpl.
  unfold RESTApi_alter_database, api_call.
  destruct (remote_alter_database _ _ _ _ _) as [o s]. simpl.
  split; [done|]. split; [done|]. apply NoDup_elements.
Qed.

(** X16.  When the service answers, [load_table_metadata] returns a
    [TableMetadata] that carries the response over: the uuid is the response's
    id, the external flag the response's, the fields, partition keys, primary
    keys and comment those of its schema; the options are a dictionary that did
    not exist before, and the call is the only one made. *)
Theorem load_table_metadata_carries_response identifier σ (d : TableData DataField) s :
  remote_get_table (api self) identifier (remote σ) = (Return d, s) ->
  exists tm σ',
    load_table_metadata PATH BRANCH Identifier_create self identifier σ = (Return tm, σ')
    /\ uuid tm = td_id d
    /\ is_external tm = td_is_external d
    /\ (fields (schema tm), partition_keys (schema tm), primary_keys (schema tm),
        comment (schema tm))
       = (sd_fields (td_schema d), sd_partition_keys (td_schema d),
          sd_primary_keys (td_schema d), sd_comment (td_schema d))
    /\ (options (schema tm) ∉ dom (heap σ))
    /\ is_Some (heap σ' !! options (schema tm))
    /\ remote σ' = s.
Proof.
  intros Hd. eexists _, _. split; [by apply load_table_metadata_run|]. simpl.
  repeat split.
  - intros Hin.
    set (l1 := fresh (dom (heap σ))) in *.
    set (h1 := <[l1 := sd_options (td_schema d)]> (heap σ)) in *.
    apply (is_fresh (dom h1)). unfold h1 at 2.
    rewrite dom_insert_L. by apply elem_of_union_r.
  - rewrite lookup_insert_eq. by eexists.
Qed.

End ServiceCalls.

(** An instance: the service has no table [db.missing]. *)
Lemma load_table_metadata_service_error_witness :
  load_table_metadata "path" "branch" Examples.create_plain
    {| api := Fixtures.failing_service (RemoteError "no such table");
       data_token_enabled := PyNone |}
    (Identifier.mk "db" "missing" None) Examples.empty_store
  = (Raise (RemoteError "no such table"),
     {| heap := ∅; calls := [ApiGetTable (Identifier.mk "db" "missing" None)];
        remote := tt |}).
Proof.
  exact (load_table_metadata_service_error "path" "branch" Examples.create_plain
           {| api := Fixtures.failing_service (RemoteError "no such table");
              data_token_enabled := PyNone |}
           (Identifier.mk "db" "missing" None) Examples.empty_store
           (RemoteError "no such table") tt eq_refl).
Defined.

(** ** get_table *)

Section GetTableProperties.
Context {R DataField FileStoreTable : Type}.
Variables PATH BRANCH : string.
Variable Identifier_create : string -> string -> Identifier.t.
Variable Identifier_from_string : string -> Outcome Identifier.t.
Variable CatalogUtils_load_table :
  Identifier.t ->
  (string -> M R (option RESTTokenFileIO)) ->
  (string -> M R (option RESTTokenFileIO)) ->
  (Identifier.t -> M R (TableMetadata DataField)) ->
  M R FileStoreTable.
Variable self : RESTCatalog R DataField.
Implicit Types (σ : Store R).

(** X12.  A table name given as a string is loaded exactly as the identifier it
    converts to: the loader, the metadata loader and the resolver for data
    files all receive the converted identifier. *)
Theorem get_table_string_as_identifier s i σ :
  Identifier_from_string s = Return i ->
  get_table PATH BRANCH Identifier_create Identifier_from_string
    CatalogUtils_load_table self (inl s) σ
  = get_table PATH BRANCH Identifier_create Identifier_from_string
      CatalogUtils_load_table self (inr i) σ.
Proof. intros H. unfold get_table, bind, lift, ret. by rewrite H. Qed.

(** X13.  A string that does not convert makes [get_table] raise the conversion's
    exception at once: the loader is not entered, so the store is as it was and
    no call has been made. *)
Theorem get_table_malformed_string s e σ :
  Identifier_from_string s = Raise e ->
  get_table PATH BRANCH Identifier_create Identifier_from_string
    CatalogUtils_load_table self (inl s) σ
  = (Raise e, σ).
Proof. intros H. unfold get_table, bind, lift. by rewrite H. Qed.

End GetTableProperties.

(** An instance: the string [db.t] and the identifier of table [t] in [db]. *)
Lemma get_table_string_as_identifier_witness :
  get_table "path" "branch" Examples.create_plain Fixtures.from_string Fixtures.load_table
    (Examples.catalog (Examples.table_t ∅ []) None (PyBool true))
    (inl "db.t") Examples.empty_store
  = get_table "path" "branch" Examples.create_plain Fixtures.from_string Fixtures.load_table
      (Examples.catalog (Examples.table_t ∅ []) None (PyBool true))
      (inr (Identifier.mk "db" "t" None)) Examples.empty_store.
Proof.
  exact (get_table_string_as_identifier "path" "branch" Examples.create_plain
           Fixtures.from_string Fixtures.load_table
           (Examples.catalog (Examples.table_t ∅ []) None (PyBool true))
           "db.t" (Identifier.mk "db" "t" None) Examples.empty_store eq_refl).
Defined.

(** An instance: a string without a table part. *)
Lemma get_table_malformed_string_witness :
  get_table "path" "branch" Examples.create_plain Fixtures.from_string Fixtures.load_table
    (Examples.catalog (Examples.table_t ∅ []) None (PyBool true))
    (inl "db") Examples.empty_store
  = (Raise (ValueError "Invalid identifier"), Examples.empty_store).
Proof.
  exact (get_table_malformed_string "path" "branch" Examples.create_plain
           Fixtures.from_string Fixtures.load_table
           (Examples.catalog (Examples.table_t ∅ []) None (PyBool true))
           "db" (ValueError "Invalid identifier") Examples.empty_store eq_refl).
Defined.

(** ** The data-token flag *)

(** X14.  [file_io_for_data] tests the flag as Python does.  A flag held as a
    string enables the accessor as soon as the string is not empty, whatever it
    spells; the empty string and [None] disable it. *)
Theorem file_io_for_data_string_flag {R DataField : Type}
        (service : RemoteService R DataField)
        (path : string) (identifier : Identifier.t) (σ : Store R) :
  (forall s, s ≠ "" ->
     file_io_for_data (mkRESTCatalog service (PyStr s)) path identifier σ
     = (Return (Some (mkRESTTokenFileIO identifier path PyNone PyNone)), σ))
  /\ file_io_for_data (mkRESTCatalog service (PyStr "")) path identifier σ
     = (Return None, σ)
  /\ file_io_for_data (mkRESTCatalog service PyNone) path identifier σ
     = (Return None, σ).
Proof.
  split; [|done]. intros s Hs. unfold file_io_for_data, ret. simpl.
  destruct (String.eqb_spec s ""); [done|reflexivity].
Qed.

(** An instance: the flag spelt [false]. *)
Lemma file_io_for_data_string_flag_witness :
  file_io_for_data
    (mkRESTCatalog (Examples.fixed_service (Examples.table_t ∅ []) None) (PyStr "false"))
    "/warehouse/db.db/t" (Identifier.mk "db" "t" None) Examples.empty_store
  = (Return (Some (mkRESTTokenFileIO (Identifier.mk "db" "t" None) "/warehouse/db.db/t"
                     PyNone PyNone)),
     Examples.empty_store).
Proof.
  apply (proj1 (file_io_for_data_string_flag
                  (Examples.fixed_service (Examples.table_t ∅ []) None)
                  "/warehouse/db.db/t" (Identifier.mk "db" "t" None) Examples.empty_store)).
  discriminate.
Defined.

(** X15.  A catalog constructed from options without an entry for the flag hands
    out no token-scoped accessor: [file_io_for_data] gives [None] for every
    path and identifier, as [file_io_from_options] always does. *)
Theorem data_token_disabled_by_default {R DataField : Type} (DATA_TOKEN_ENABLED : string)
        (service : RemoteService R DataField) (api_options : gmap string PyValue)
        (path : string) (identifier : Identifier.t) (σ : Store R) :
  api_options !! DATA_TOKEN_ENABLED = None ->
  file_io_for_data (RESTCatalog_init DATA_TOKEN_ENABLED service api_options)
    path identifier σ
  = (Return None, σ)
  /\ file_io_for_data (RESTCatalog_init DATA_TOKEN_ENABLED service api_options)
       path identifier σ
     = file_io_from_options path σ.
Proof.
  intros H. unfold file_io_for_data, file_io_from_options, RESTCatalog_init. simpl.
  by rewrite H.
Qed.

(** An instance: options that only name the warehouse. *)
Lemma data_token_disabled_by_default_witness :
  file_io_for_data
    (RESTCatalog_init "data-token.enabled"
       (Examples.fixed_service (Examples.table_t ∅ []) None)
       {["warehouse" := PyStr "wh"]})
    "/warehouse/db.db/t" (Identifier.mk "db" "t" None) Examples.empty_store
  = (Return None, Examples.empty_store).
Proof.
  apply (data_token_disabled_by_default "data-token.enabled"
           (Examples.fixed_service (Examples.table_t ∅ []) None)
           {["warehouse" := PyStr "wh"]}
           "/warehouse/db.db/t" (Identifier.mk "db" "t" None) Examples.empty_store).
  vm_compute. reflexivity.
Defined.

(** An instance: table [db.t], whose id is [uuid-1]. *)
Lemma load_table_metadata_carries_response_witness :
  exists tm σ',
    load_table_metadata "path" "branch" Examples.create_plain
      (Examples.catalog (Examples.table_t ∅ []) None PyNone)
      (Identifier.mk "db" "t" None) Examples.empty_store
    = (Return tm, σ')
    /\ uuid tm = "uuid-1"
    /\ is_external tm = false.
Proof.
  destruct (load_table_metadata_carries_response "path" "branch" Examples.create_plain
              (Examples.catalog (Examples.table_t ∅ []) None PyNone)
              (Identifier.mk "db" "t" None) Examples.empty_store
              (Examples.table_t ∅ []) tt eq_refl)
    as (tm & σ' & Hrun & Hid & Hext & _).
  exists tm, σ'. exact (conj Hrun (conj Hid Hext)).
Defined.
